(** * The agent portrayal callback of the Mesa visualization tutorial

    Source: [docs/tutorials/visualization_tutorial.ipynb], the cell under
    "Changing the agents":

<<
    def agent_portrayal(agent):
        size = 10
        color = "tab:red"
        if agent.wealth > 0:
            size = 50
            color = "tab:blue"
        return {"size": size, "color": color}
>>

    The callback receives one agent of the money model, reads its [wealth]
    attribute, and returns a dictionary with the marker size and colour.

    The embedding keeps what Python does around those six lines:
    - an agent is an object whose attributes live in a dictionary from
      attribute names to values ([gmap string value]);
    - attribute access can raise [AttributeError], and the comparison with
      [0] can raise [TypeError], so the callback runs in a state and
      exception monad whose state is the agent it was handed;
    - the returned dictionary is a [gmap string value]; two dictionaries are
      structurally equal (Python's [==]) exactly when they are equal maps. *)

From Stdlib Require Import ZArith Lia.
From stdpp Require Import base option gmap strings fin_maps.

Local Open Scope string_scope.
Local Open Scope Z_scope.

(** ** Values and exceptions *)

(** The values an attribute of a money-model agent holds, and the values the
    callback stores in its dictionary.  Wealth is a number of coins, a Python
    [int]; [bool] is a subclass of [int] and compares like [0] and [1];
    strings and [None] do not order against an [int].  Floating-point
    numbers are left out of the embedding; the statements below speak of the
    values of this type and of no others. *)
Inductive value : Type :=
  | VInt (n : Z)
  | VBool (b : bool)
  | VStr (s : string)
  | VNone.

#[global] Instance value_eq_dec : EqDecision value.
Proof. solve_decision. Defined.

(** Exceptions.  The callback can raise two: [AttributeError], which carries
    the name of the attribute that was looked up, and [TypeError].  A library
    the notebook calls may raise those or an exception of any other class,
    named by [OtherError]. *)
Inductive exn : Type :=
  | AttributeError (name : string)
  | TypeError
  | OtherError (class : string).

#[global] Instance exn_eq_dec : EqDecision exn.
Proof. solve_decision. Defined.

(** Outcome of running a piece of Python: a value or a raised exception. *)
Inductive result (A : Type) : Type :=
  | Ok (a : A)
  | Raise (e : exn).
Arguments Ok {A} a.
Arguments Raise {A} e.

(** ** Objects and the interpreter monad *)

(** An agent, seen through its instance dictionary. *)
Abbreviation entity := (gmap string value).

(** A portrayal: the dictionary the callback returns. *)
Abbreviation portrayal := (gmap string value).

(** Code that runs against the agent bound to the parameter [agent]: it may
    read or write the agent's attributes and may raise. *)
Definition Py (A : Type) : Type := entity → entity * result A.

#[global] Instance Py_ret : MRet Py := λ A a s, (s, Ok a).

#[global] Instance Py_bind : MBind Py := λ A B k c s,
  match c s with
  | (s', Ok a) => k a s'
  | (s', Raise e) => (s', Raise e)
  end.

Definition raise {A} (e : exn) : Py A := λ s, (s, Raise e).

(** [agent.name] *)
Definition getattr (name : string) : Py value := λ s,
  match s !! name with
  | Some v => (s, Ok v)
  | None => (s, Raise (AttributeError name))
  end.

(** [agent.name = v] *)
Definition setattr (name : string) (v : value) : Py unit := λ s,
  (<[name := v]> s, Ok tt).

(** The agent after the code ran, and what the code returned. *)
Definition exec {A} (c : Py A) (s : entity) : entity := fst (c s).
Definition eval {A} (c : Py A) (s : entity) : result A := snd (c s).

(** ** Comparison *)

(** The integer a value stands for in an arithmetic comparison, if any. *)
Definition as_int (v : value) : option Z :=
  match v with
  | VInt n => Some n
  | VBool b => Some (Z.b2z b)
  | VStr _ | VNone => None
  end.

(** [a > b]: defined between numbers, [TypeError] otherwise. *)
Definition py_gt (a b : value) : Py bool :=
  match as_int a, as_int b with
  | Some x, Some y => mret (y <? x)
  | _, _ => raise TypeError
  end.

(** ** The callback *)

(** The first cell of the tutorial draws every agent alike:
<<
    def agent_portrayal(agent):
        return {
            "color": "tab:blue",
            "size": 50,
        }
>>
    The later cell redefines the name; the redefinition is the callback the
    rest of this file is about. *)
Module Simplest.
Definition agent_portrayal : Py portrayal :=
  mret (<["size" := VInt 50]> (<["color" := VStr "tab:blue"]> ∅)).
End Simplest.

Definition agent_portrayal : Py portrayal :=
  let size := VInt 10 in
  let color := VStr "tab:red" in
  wealth ← getattr "wealth";
  positive ← py_gt wealth (VInt 0);
  let '(size, color) :=
    if (positive : bool) then (VInt 50, VStr "tab:blue") else (size, color) in
  mret (<["color" := color]> (<["size" := size]> ∅)).

(** A caller that asks for the portrayal of the same agent in two successive
    rendering frames: [(agent_portrayal(agent), agent_portrayal(agent))]. *)
Definition portray_twice : Py (portrayal * portrayal) :=
  first ← agent_portrayal;
  second ← agent_portrayal;
  mret (first, second).

(** ** The records and notions the specification names *)

(** The favorable record, [{color: "tab:blue", size: 50}]. *)
Definition favorable : portrayal :=
  <["size" := VInt 50]> {["color" := VStr "tab:blue"]}.

(** The baseline, or depleted, record, [{color: "tab:red", size: 10}]. *)
Definition depleted : portrayal :=
  <["size" := VInt 10]> {["color" := VStr "tab:red"]}.

(** The number held by the inspected attribute, when the agent has the
    attribute and it holds a number. *)
Definition wealth (s : entity) : option Z := s !! "wealth" ≫= as_int.

(** A record is complete when each recognized field carries a concrete
    value: the name of a colour under [color], a number under [size].  A
    missing key, [None] or an empty name is not one. *)
Definition complete (r : portrayal) : Prop :=
  (∃ c, r !! "color" = Some (VStr c) ∧ c ≠ "") ∧
  (∃ n, r !! "size" = Some (VInt n)).

(** The [size] field holds a positive number. *)
Definition positive_size (r : portrayal) : Prop :=
  ∃ n, r !! "size" = Some (VInt n) ∧ 0 < n.

(** ** Sample agents *)

Definition agent_with (w : value) : entity :=
  <["wealth" := w]> (<["unique_id" := VInt 4]> ∅).

Definition rich_agent : entity := agent_with (VInt 37).
Definition other_rich_agent : entity :=
  <["unique_id" := VInt 9]> (<["pos" := VStr "3,4"]> {["wealth" := VInt 2]}).
Definition rich_twin : entity :=
  <["unique_id" := VInt 9]> {["wealth" := VInt 37]}.
Definition broke_agent : entity := agent_with (VInt 0).
Definition indebted_agent : entity := agent_with (VInt (-3)).
Definition mislabelled_agent : entity := agent_with (VStr "rich").
Definition bare_agent : entity := {["unique_id" := VInt 4]}.

(** ** The histogram component

    The cell under "Building your own visualization component":
<<
    def make_histogram(model):
        fig = Figure()
        ax = fig.subplots()
        wealth_vals = [agent.wealth for agent in model.schedule.agents]
        ax.hist(wealth_vals, bins=10)
        solara.FigureMatplotlib(fig)
>>
    The function reads the agents of the model's scheduler and talks to
    Matplotlib and Solara.  What the two libraries do inside a call is not
    part of the notebook: a call is recorded, with its arguments.  Creating
    the figure and its axes, and displaying the figure, are taken to return.
    [ax.hist] looks at the values it is given and can refuse them; whether
    it returns or raises, and what, is a parameter of the embedding.  An
    object a library creates is named by the number of objects created
    before it. *)

Inductive event : Type :=
  | EvFigure (fig : nat)
  | EvSubplots (fig ax : nat)
  | EvHist (ax : nat) (x : list value) (bins : Z)
  | EvFigureMatplotlib (fig : nat).

(** What [make_histogram] runs against: a model that has a scheduler, given
    by the list [model.schedule.agents], the number of library objects
    created so far, and the library calls made so far, oldest first. *)
Record world : Type := World {
  agents : list entity;
  allocated : nat;
  calls : list event
}.

Definition Nb (A : Type) : Type := world → world * result A.

#[global] Instance Nb_ret : MRet Nb := λ A a w, (w, Ok a).

#[global] Instance Nb_bind : MBind Nb := λ A B k c w,
  match c w with
  | (w', Ok a) => k a w'
  | (w', Raise e) => (w', Raise e)
  end.

Definition exec_nb {A} (c : Nb A) (w : world) : world := fst (c w).
Definition eval_nb {A} (c : Nb A) (w : world) : result A := snd (c w).

(** [Figure()] *)
Definition Figure : Nb nat := λ w,
  let fig := allocated w in
  (World (agents w) (S fig) (calls w ++ [EvFigure fig]), Ok fig).

(** [fig.subplots()] *)
Definition subplots (fig : nat) : Nb nat := λ w,
  let ax := allocated w in
  (World (agents w) (S ax) (calls w ++ [EvSubplots fig ax]), Ok ax).

(** [solara.FigureMatplotlib(fig)] *)
Definition FigureMatplotlib (fig : nat) : Nb unit := λ w,
  (World (agents w) (allocated w) (calls w ++ [EvFigureMatplotlib fig]), Ok tt).

(** [[body for agent in l]]: the body runs against each agent in turn and
    the values are collected in order; the first exception ends the loop. *)
Fixpoint comprehension {A} (body : Py A) (l : list entity)
  : list entity * result (list A) :=
  match l with
  | [] => ([], Ok [])
  | agent :: rest =>
      match body agent with
      | (agent', Ok a) =>
          match comprehension body rest with
          | (rest', Ok vals) => (agent' :: rest', Ok (a :: vals))
          | (rest', Raise e) => (agent' :: rest', Raise e)
          end
      | (agent', Raise e) => (agent' :: rest, Raise e)
      end
  end.

(** [[body for agent in model.schedule.agents]] *)
Definition for_agent_in_schedule {A} (body : Py A) : Nb (list A) := λ w,
  let '(l, r) := comprehension body (agents w) in
  (World l (allocated w) (calls w), r).

Section Matplotlib.

(** Matplotlib's answer to [ax.hist(x, bins=bins)]: [None] when the call
    returns, the exception when it raises. *)
Variable hist_raises : list value → Z → option exn.

(** [ax.hist(x, bins=bins)] *)
Definition hist (ax : nat) (x : list value) (bins : Z) : Nb unit := λ w,
  let w' := World (agents w) (allocated w) (calls w ++ [EvHist ax x bins]) in
  match hist_raises x bins with
  | None => (w', Ok tt)
  | Some e => (w', Raise e)
  end.

Definition make_histogram : Nb value :=
  fig ← Figure;
  ax ← subplots fig;
  wealth_vals ← for_agent_in_schedule (getattr "wealth");
  hist ax wealth_vals 10;;
  FigureMatplotlib fig;;
  mret VNone.

End Matplotlib.

(** The calls of one successful run that starts with [fig] objects created:
    the figure, its axes, the histogram of [x] in ten bins, the display. *)
Definition histogram_calls (fig : nat) (x : list value) : list event :=
  [EvFigure fig; EvSubplots fig (S fig); EvHist (S fig) x 10;
   EvFigureMatplotlib fig].

(** The calls of a run that stops in the comprehension. *)
Definition abandoned_calls (fig : nat) : list event :=
  [EvFigure fig; EvSubplots fig (S fig)].

(** The calls of a run in which [ax.hist] raises on [x]. *)
Definition refused_calls (fig : nat) (x : list value) : list event :=
  [EvFigure fig; EvSubplots fig (S fig); EvHist (S fig) x 10].

(** A run from [w] that gets as far as the histogram of the values [x]: it
    makes the histogram call on [x] in ten bins; if Matplotlib returns, the
    figure is displayed and the run returns [None]; if Matplotlib raises,
    the run raises the same exception and displays nothing. *)
Definition plots (hist_raises : list value → Z → option exn)
    (w : world) (x : list value) : Prop :=
  match hist_raises x 10 with
  | None =>
      eval_nb (make_histogram hist_raises) w = Ok VNone ∧
      calls (exec_nb (make_histogram hist_raises) w) =
        (calls w ++ histogram_calls (allocated w) x)%list
  | Some e =>
      eval_nb (make_histogram hist_raises) w = Raise e ∧
      calls (exec_nb (make_histogram hist_raises) w) =
        (calls w ++ refused_calls (allocated w) x)%list
  end.

(** ** Sample library answers *)

(** A histogram that takes lists of numbers and raises [TypeError] on a list
    with a string or [None] in it. *)
Definition numbers_only (x : list value) (bins : Z) : option exn :=
  match mapM as_int x with
  | Some _ => None
  | None => Some TypeError
  end.

(** A histogram that raises on every list. *)
Definition never_plots (x : list value) (bins : Z) : option exn :=
  Some (OtherError "ValueError").

(** ** Sample models *)

Definition money_model : world :=
  World [rich_agent; broke_agent; other_rich_agent] 0 [].

Definition broken_model : world :=
  World [rich_agent; bare_agent; broke_agent] 2 (abandoned_calls 0).

(** ** How a call runs *)

(** The record the last line builds from the final [size] and [color]. *)
Lemma built_favorable :
  <["color" := VStr "tab:blue"]> (<["size" := VInt 50]> (∅ : portrayal)) = favorable.
Proof.
  unfold favorable. rewrite insert_insert_ne by discriminate.
  now rewrite insert_empty.
Qed.

Lemma built_depleted :
  <["color" := VStr "tab:red"]> (<["size" := VInt 10]> (∅ : portrayal)) = depleted.
Proof.
  unfold depleted. rewrite insert_insert_ne by discriminate.
  now rewrite insert_empty.
Qed.

(** One equation for every call: the agent comes back as it went in, and the
    outcome is decided by the lookup, then by the comparison with [0]. *)
Lemma agent_portrayal_run (s : entity) :
  agent_portrayal s =
    (s, match s !! "wealth" with
        | None => Raise (AttributeError "wealth")
        | Some v =>
            match as_int v with
            | None => Raise TypeError
            | Some w => Ok (if 0 <? w then favorable else depleted)
            end
        end).
Proof.
  unfold agent_portrayal, mbind, Py_bind, getattr.
  destruct (s !! "wealth") as [v|]; [|reflexivity].
  unfold py_gt. change (as_int (VInt 0)) with (Some 0).
  destruct (as_int v) as [w|]; [|reflexivity].
  unfold mret, Py_ret.
  destruct (0 <? w); [rewrite built_favorable | rewrite built_depleted];
    reflexivity.
Qed.

Lemma eval_agent_portrayal_number (s : entity) (w : Z) :
  wealth s = Some w →
  eval agent_portrayal s = Ok (if 0 <? w then favorable else depleted).
Proof.
  unfold wealth, eval. rewrite agent_portrayal_run.
  destruct (s !! "wealth") as [v|]; [|discriminate].
  cbn [mbind option_bind snd]. now intros ->.
Qed.

(** An exception raised by the callback reaches whoever called it. *)
Lemma eval_bind_agent_portrayal_raise {B} (k : portrayal → Py B) (s : entity) (e : exn) :
  eval agent_portrayal s = Raise e → eval (agent_portrayal ≫= k) s = Raise e.
Proof.
  unfold eval, mbind, Py_bind.
  destruct (agent_portrayal s) as [s' [r|e']]; cbn [snd]; [discriminate|].
  intros [= ->]. reflexivity.
Qed.

(** Every record the callback can build has both fields, a positive size and
    no third key. *)
Lemma favorable_lookup_color : favorable !! "color" = Some (VStr "tab:blue").
Proof. unfold favorable. rewrite lookup_insert_ne by discriminate. apply lookup_singleton_eq. Qed.

Lemma favorable_lookup_size : favorable !! "size" = Some (VInt 50).
Proof. unfold favorable. apply lookup_insert_eq. Qed.

Lemma depleted_lookup_color : depleted !! "color" = Some (VStr "tab:red").
Proof. unfold depleted. rewrite lookup_insert_ne by discriminate. apply lookup_singleton_eq. Qed.

Lemma depleted_lookup_size : depleted !! "size" = Some (VInt 10).
Proof. unfold depleted. apply lookup_insert_eq. Qed.

Lemma favorable_dom : dom favorable = ({["size"; "color"]} : gset string).
Proof. unfold favorable. now rewrite dom_insert_L, dom_singleton_L. Qed.

Lemma depleted_dom : dom depleted = ({["size"; "color"]} : gset string).
Proof. unfold depleted. now rewrite dom_insert_L, dom_singleton_L. Qed.

(** What a call returns is one of the two records, and it returns one as
    soon as the attribute holds a number. *)
Lemma agent_portrayal_returns (s : entity) (r : portrayal) :
  eval agent_portrayal s = Ok r → r = favorable ∨ r = depleted.
Proof.
  unfold eval. rewrite agent_portrayal_run. cbn [snd].
  destruct (s !! "wealth") as [v|]; [|discriminate].
  destruct (as_int v) as [w|]; [|discriminate].
  destruct (0 <? w); intros [= <-]; [now left | now right].
Qed.

Lemma agent_portrayal_total (s : entity) (v : value) (w : Z) :
  s !! "wealth" = Some v → as_int v = Some w →
  ∃ r, eval agent_portrayal s = Ok r.
Proof.
  intros Hv Hw. eexists. apply eval_agent_portrayal_number.
  unfold wealth. rewrite Hv. exact Hw.
Qed.

(** X1. An attribute that does not hold a number stops the call at the
    comparison: [agent.wealth > 0] raises [TypeError]. *)
Lemma agent_portrayal_not_a_number (s : entity) (v : value) :
  s !! "wealth" = Some v → as_int v = None →
  eval agent_portrayal s = Raise TypeError.
Proof.
  intros Hv Hnan. unfold eval. now rewrite agent_portrayal_run, Hv, Hnan.
Qed.

(** The record follows the wealth the agent has when the callback is called:
    once the model has taken an agent's last coin, the agent is drawn red. *)
Lemma agent_portrayal_after_setattr (s : entity) (n : Z) :
  eval (setattr "wealth" (VInt n);; agent_portrayal) s =
    Ok (if 0 <? n then favorable else depleted).
Proof.
  unfold eval, mbind, Py_bind, setattr.
  rewrite agent_portrayal_run, lookup_insert_eq. reflexivity.
Qed.

(** On an agent with money the redefined callback agrees with the first. *)
Lemma agent_portrayal_extends_simplest (s : entity) (w : Z) :
  wealth s = Some w → 0 < w →
  eval agent_portrayal s = eval Simplest.agent_portrayal s.
Proof.
  intros Hw Hpos. rewrite (eval_agent_portrayal_number s w Hw).
  apply Z.ltb_lt in Hpos. rewrite Hpos. reflexivity.
Qed.

(** ** The claims *)

(** C1. For every agent whose [wealth] attribute is greater than 0, the
    callback returns exactly the favorable record
    [{color: "tab:blue", size: 50}]. *)
Theorem agent_portrayal_wealthy (s : entity) (w : Z) :
  wealth s = Some w → 0 < w → eval agent_portrayal s = Ok favorable.
Proof.
  intros Hw Hpos. rewrite (eval_agent_portrayal_number s w Hw).
  apply Z.ltb_lt in Hpos. now rewrite Hpos.
Qed.

Lemma agent_portrayal_wealthy_witness :
  wealth rich_agent = Some 37 ∧ 0 < 37 ∧
  eval agent_portrayal rich_agent = Ok favorable.
Proof.
  split; [reflexivity|]. split; [reflexivity|].
  apply (agent_portrayal_wealthy rich_agent 37); reflexivity.
Defined.

(** C2. For every agent whose [wealth] attribute equals 0, the callback
    returns exactly the baseline record [{color: "tab:red", size: 10}]. *)
Theorem agent_portrayal_broke (s : entity) :
  wealth s = Some 0 → eval agent_portrayal s = Ok depleted.
Proof.
  intros Hw. now rewrite (eval_agent_portrayal_number s 0 Hw).
Qed.

Lemma agent_portrayal_broke_witness :
  wealth broke_agent = Some 0 ∧ eval agent_portrayal broke_agent = Ok depleted.
Proof.
  split; [reflexivity|].
  apply (agent_portrayal_broke broke_agent); reflexivity.
Defined.

(** C3. For every agent that lacks the [wealth] attribute, the callback
    raises [AttributeError] for that attribute; it returns no record, and any
    caller that goes on to use the record receives the same exception. *)
Theorem agent_portrayal_missing_attribute (s : entity) :
  s !! "wealth" = None →
  eval agent_portrayal s = Raise (AttributeError "wealth") ∧
  (∀ r, eval agent_portrayal s ≠ Ok r) ∧
  (∀ B (k : portrayal → Py B),
     eval (agent_portrayal ≫= k) s = Raise (AttributeError "wealth")).
Proof.
  intros Hnone.
  assert (Hraise : eval agent_portrayal s = Raise (AttributeError "wealth")).
  { unfold eval. rewrite agent_portrayal_run, Hnone. reflexivity. }
  split; [exact Hraise|]. split.
  - intros r Hr. rewrite Hraise in Hr. discriminate Hr.
  - intros B k. now apply eval_bind_agent_portrayal_raise.
Qed.

Lemma agent_portrayal_missing_attribute_witness :
  bare_agent !! "wealth" = None ∧
  eval agent_portrayal bare_agent = Raise (AttributeError "wealth") ∧
  (∀ r, eval agent_portrayal bare_agent ≠ Ok r) ∧
  (∀ B (k : portrayal → Py B),
     eval (agent_portrayal ≫= k) bare_agent = Raise (AttributeError "wealth")).
Proof.
  split; [reflexivity|].
  apply (agent_portrayal_missing_attribute bare_agent); reflexivity.
Defined.

(** C4. The callback is deterministic: two agents whose [wealth] attributes
    hold the same value (or both lack it) get the same outcome, and asking
    twice for the portrayal of one agent yields two equal records. *)
Theorem agent_portrayal_deterministic (s1 s2 : entity) :
  s1 !! "wealth" = s2 !! "wealth" →
  eval agent_portrayal s1 = eval agent_portrayal s2 ∧
  eval portray_twice s1 =
    match eval agent_portrayal s1 with
    | Ok r => Ok (r, r)
    | Raise e => Raise e
    end.
Proof.
  intros Hsame. split.
  - unfold eval. rewrite !agent_portrayal_run, Hsame. reflexivity.
  - unfold portray_twice, eval, mbind, Py_bind.
    rewrite agent_portrayal_run. cbn [snd].
    case_eq (s1 !! "wealth"); [intros v Hv | reflexivity].
    destruct (as_int v) as [w|] eqn:Hw; [|reflexivity].
    rewrite agent_portrayal_run, Hv, Hw. reflexivity.
Qed.

Lemma agent_portrayal_deterministic_witness :
  rich_agent !! "wealth" = rich_twin !! "wealth" ∧
  eval agent_portrayal rich_agent = eval agent_portrayal rich_twin ∧
  eval portray_twice rich_agent = Ok (favorable, favorable).
Proof.
  split; [reflexivity|].
  exact (agent_portrayal_deterministic rich_agent rich_twin eq_refl).
Defined.

(** C5. A call leaves the agent as it found it: after the callback has run,
    every attribute of the agent, its [wealth] among them, holds the value it
    held before, whether the call returned or raised. *)
Theorem agent_portrayal_pure (s : entity) :
  exec agent_portrayal s = s ∧
  ∀ name, exec agent_portrayal s !! name = s !! name.
Proof.
  assert (Hexec : exec agent_portrayal s = s).
  { unfold exec. now rewrite agent_portrayal_run. }
  split; [exact Hexec|]. intros name. now rewrite Hexec.
Qed.

(** C6. For every agent that has the [wealth] attribute, a record the
    callback returns has a concrete value under each recognized field, the
    name of a colour under [color] and a number under [size], neither
    missing nor [None]; and a record is returned whenever the attribute holds
    a number. *)
Theorem agent_portrayal_complete (s : entity) (v : value) :
  s !! "wealth" = Some v →
  (∀ r, eval agent_portrayal s = Ok r → complete r) ∧
  (∀ w, as_int v = Some w → ∃ r, eval agent_portrayal s = Ok r ∧ complete r).
Proof.
  intros Hv.
  assert (Hall : ∀ r, eval agent_portrayal s = Ok r → complete r).
  { intros r Hr. unfold complete.
    destruct (agent_portrayal_returns s r Hr) as [-> | ->].
    - split.
      + exists "tab:blue". split; [apply favorable_lookup_color | discriminate].
      + exists 50. apply favorable_lookup_size.
    - split.
      + exists "tab:red". split; [apply depleted_lookup_color | discriminate].
      + exists 10. apply depleted_lookup_size. }
  split; [exact Hall|].
  intros w Hw. destruct (agent_portrayal_total s v w Hv Hw) as [r Hr].
  exists r. split; [exact Hr | exact (Hall r Hr)].
Qed.

Lemma agent_portrayal_complete_witness :
  rich_agent !! "wealth" = Some (VInt 37) ∧
  ∃ r, eval agent_portrayal rich_agent = Ok r ∧ complete r.
Proof.
  split; [reflexivity|].
  exact (proj2 (agent_portrayal_complete rich_agent (VInt 37) eq_refl) 37 eq_refl).
Defined.

(** C7. For every agent that has the [wealth] attribute, the [size] field of
    a record the callback returns is a positive number; and a record is
    returned whenever the attribute holds a number. *)
Theorem agent_portrayal_size_positive (s : entity) (v : value) :
  s !! "wealth" = Some v →
  (∀ r, eval agent_portrayal s = Ok r → positive_size r) ∧
  (∀ w, as_int v = Some w →
        ∃ r, eval agent_portrayal s = Ok r ∧ positive_size r).
Proof.
  intros Hv.
  assert (Hall : ∀ r, eval agent_portrayal s = Ok r → positive_size r).
  { intros r Hr. apply agent_portrayal_returns in Hr as [-> | ->].
    - exists 50. split; [apply favorable_lookup_size | lia].
    - exists 10. split; [apply depleted_lookup_size | lia]. }
  split; [exact Hall|].
  intros w Hw. destruct (agent_portrayal_total s v w Hv Hw) as [r Hr].
  eauto.
Qed.

Lemma agent_portrayal_size_positive_witness :
  broke_agent !! "wealth" = Some (VInt 0) ∧
  ∃ r, eval agent_portrayal broke_agent = Ok r ∧ positive_size r.
Proof.
  split; [reflexivity|].
  exact (proj2 (agent_portrayal_size_positive broke_agent (VInt 0) eq_refl) 0 eq_refl).
Defined.

(** C8. For every agent whose [wealth] attribute is strictly negative, the
    callback returns the baseline record [{color: "tab:red", size: 10}]. *)
Theorem agent_portrayal_indebted (s : entity) (w : Z) :
  wealth s = Some w → w < 0 → eval agent_portrayal s = Ok depleted.
Proof.
  intros Hw Hneg. rewrite (eval_agent_portrayal_number s w Hw).
  destruct (Z.ltb_spec 0 w) as [Hpos | _]; [lia | reflexivity].
Qed.

Lemma agent_portrayal_indebted_witness :
  wealth indebted_agent = Some (-3) ∧ -3 < 0 ∧
  eval agent_portrayal indebted_agent = Ok depleted.
Proof.
  split; [reflexivity|]. split; [reflexivity|].
  apply (agent_portrayal_indebted indebted_agent (-3)); reflexivity.
Defined.

(** C9. The outcome depends on the wealth only through the test
    [wealth > 0]: two agents whose wealths are both positive, or both not
    positive, receive the same record, whatever the two amounts are. *)
Theorem agent_portrayal_sign_only (s1 s2 : entity) (w1 w2 : Z) :
  wealth s1 = Some w1 → wealth s2 = Some w2 →
  (0 < w1 ∧ 0 < w2) ∨ (w1 ≤ 0 ∧ w2 ≤ 0) →
  ∃ r, eval agent_portrayal s1 = Ok r ∧ eval agent_portrayal s2 = Ok r.
Proof.
  intros H1 H2 Hsign.
  rewrite (eval_agent_portrayal_number s1 w1 H1).
  rewrite (eval_agent_portrayal_number s2 w2 H2).
  assert (Hb : (0 <? w1) = (0 <? w2)).
  { destruct Hsign as [[Ha Hb] | [Ha Hb]].
    - apply Z.ltb_lt in Ha, Hb. congruence.
    - apply Z.ltb_ge in Ha, Hb. congruence. }
  rewrite Hb. eauto.
Qed.

Lemma agent_portrayal_sign_only_witness :
  wealth rich_agent = Some 37 ∧ wealth other_rich_agent = Some 2 ∧
  ((0 < 37 ∧ 0 < 2) ∨ (37 ≤ 0 ∧ 2 ≤ 0)) ∧
  ∃ r, eval agent_portrayal rich_agent = Ok r ∧
       eval agent_portrayal other_rich_agent = Ok r.
Proof.
  split; [reflexivity|]. split; [reflexivity|].
  split; [left; split; reflexivity|].
  apply (agent_portrayal_sign_only rich_agent other_rich_agent 37 2);
    [reflexivity | reflexivity | left; split; reflexivity].
Defined.

(** C10. For every agent that has the [wealth] attribute, a record the
    callback returns has exactly the two keys ["size"] and ["color"]; and a
    record is returned whenever the attribute holds a number. *)
Theorem agent_portrayal_keys (s : entity) (v : value) :
  s !! "wealth" = Some v →
  (∀ r, eval agent_portrayal s = Ok r → dom r = {["size"; "color"]}) ∧
  (∀ w, as_int v = Some w →
        ∃ r, eval agent_portrayal s = Ok r ∧ dom r = {["size"; "color"]}).
Proof.
  intros Hv.
  assert (Hall : ∀ r, eval agent_portrayal s = Ok r → dom r = {["size"; "color"]}).
  { intros r Hr. destruct (agent_portrayal_returns s r Hr); subst r.
    - apply favorable_dom.
    - apply depleted_dom. }
  split; [exact Hall|].
  intros w Hw. destruct (agent_portrayal_total s v w Hv Hw) as [r Hr].
  exists r. auto.
Qed.

Lemma agent_portrayal_keys_witness :
  indebted_agent !! "wealth" = Some (VInt (-3)) ∧
  ∃ r, eval agent_portrayal indebted_agent = Ok r ∧ dom r = {["size"; "color"]}.
Proof.
  split; [reflexivity|].
  exact (proj2 (agent_portrayal_keys indebted_agent (VInt (-3)) eq_refl) (-3) eq_refl).
Defined.

(** ** More on the callback *)

Lemma agent_portrayal_not_a_number_witness :
  mislabelled_agent !! "wealth" = Some (VStr "rich") ∧
  as_int (VStr "rich") = None ∧
  eval agent_portrayal mislabelled_agent = Raise TypeError.
Proof.
  split; [reflexivity|]. split; [reflexivity|].
  apply (agent_portrayal_not_a_number mislabelled_agent (VStr "rich"));
    reflexivity.
Defined.

(** The two records differ, so the record tells the two branches apart. *)
Lemma favorable_not_depleted : favorable ≠ depleted.
Proof.
  intros Heq. pose proof favorable_lookup_size as Hsize.
  rewrite Heq, depleted_lookup_size in Hsize. discriminate Hsize.
Qed.

(** The outcome of a call, read off the number the attribute holds. *)
Lemma eval_agent_portrayal_cases (s : entity) :
  (wealth s = None ∧ ∃ e, eval agent_portrayal s = Raise e) ∨
  (∃ w, wealth s = Some w ∧
        eval agent_portrayal s = Ok (if 0 <? w then favorable else depleted)).
Proof.
  destruct (wealth s) as [w|] eqn:Hw.
  - right. exists w. split; [reflexivity|].
    now apply eval_agent_portrayal_number.
  - left. split; [reflexivity|]. revert Hw.
    unfold wealth, eval. rewrite agent_portrayal_run.
    destruct (s !! "wealth") as [v|]; cbn [mbind option_bind snd].
    + intros ->. eauto.
    + eauto.
Qed.

(** A blue record can only come from a positive wealth. *)
Lemma eval_favorable_inv (s : entity) :
  eval agent_portrayal s = Ok favorable → ∃ w, wealth s = Some w ∧ 0 < w.
Proof.
  intros Hfav.
  destruct (eval_agent_portrayal_cases s) as [[_ [e He]] | [w [Hw Hr]]].
  - rewrite He in Hfav. discriminate Hfav.
  - exists w. split; [exact Hw|].
    rewrite Hr in Hfav. destruct (Z.ltb_spec 0 w) as [Hpos|_]; [exact Hpos|].
    injection Hfav as Hfav. now destruct favorable_not_depleted.
Qed.

Lemma eval_favorable_intro (s : entity) (w : Z) :
  wealth s = Some w → 0 < w → eval agent_portrayal s = Ok favorable.
Proof.
  intros Hw Hpos. rewrite (eval_agent_portrayal_number s w Hw).
  apply Z.ltb_lt in Hpos. now rewrite Hpos.
Qed.

(** X3. The blue, large marker is returned for agents with a positive wealth
    and for no others. *)
Theorem agent_portrayal_favorable_iff (s : entity) :
  eval agent_portrayal s = Ok favorable ↔ ∃ w, wealth s = Some w ∧ 0 < w.
Proof.
  split; [apply eval_favorable_inv|].
  intros [w [Hw Hpos]]. exact (eval_favorable_intro s w Hw Hpos).
Qed.

(** X5. The first version of the callback returns the blue record for every
    agent, also one without [wealth]; the redefinition gives the same outcome
    as the first version exactly on the agents with a positive wealth. *)
Theorem agent_portrayal_agrees_with_simplest_iff (s : entity) :
  Simplest.agent_portrayal s = (s, Ok favorable) ∧
  (eval agent_portrayal s = eval Simplest.agent_portrayal s ↔
   ∃ w, wealth s = Some w ∧ 0 < w).
Proof.
  assert (Hsimple : Simplest.agent_portrayal s = (s, Ok favorable)).
  { unfold Simplest.agent_portrayal, mret, Py_ret, favorable.
    now rewrite insert_empty. }
  split; [exact Hsimple|].
  unfold eval at 2. rewrite Hsimple. cbn [snd]. split.
  - apply eval_favorable_inv.
  - intros [w [Hw Hpos]]. now apply (eval_favorable_intro s w).
Qed.

(** ** How the histogram is built *)

(** Reading one attribute of every agent: the agents are handed back as they
    were, and the values are the lookups, all of them or none. *)
Lemma comprehension_getattr (name : string) (l : list entity) :
  comprehension (getattr name) l =
    (l, match mapM (λ agent : entity, agent !! name) l with
        | Some vals => Ok vals
        | None => Raise (AttributeError name)
        end).
Proof.
  induction l as [|agent rest IH]; [reflexivity|].
  cbn [comprehension]. unfold getattr at 1.
  rewrite IH. cbn [mapM]. unfold mbind, option_bind, mret, option_ret.
  destruct (agent !! name) as [v|]; [|reflexivity].
  now destruct (mapM _ rest).
Qed.

(** One equation for every run of [make_histogram]. *)
Lemma make_histogram_run (hist_raises : list value → Z → option exn) (w : world) :
  make_histogram hist_raises w =
    match mapM (λ agent : entity, agent !! "wealth") (agents w) with
    | Some vals =>
        match hist_raises vals 10 with
        | None =>
            (World (agents w) (S (S (allocated w)))
               (calls w ++ histogram_calls (allocated w) vals), Ok VNone)
        | Some e =>
            (World (agents w) (S (S (allocated w)))
               (calls w ++ refused_calls (allocated w) vals), Raise e)
        end
    | None =>
        (World (agents w) (S (S (allocated w)))
           (calls w ++ abandoned_calls (allocated w)),
         Raise (AttributeError "wealth"))
    end.
Proof.
  unfold make_histogram, mbind, Nb_bind, Figure, subplots,
    for_agent_in_schedule, hist, FigureMatplotlib, mret, Nb_ret.
  cbn [agents allocated calls]. rewrite comprehension_getattr.
  unfold histogram_calls, refused_calls, abandoned_calls.
  destruct (mapM _ (agents w)) as [vals|]; cbn [agents allocated calls].
  - destruct (hist_raises vals 10) as [e|];
      cbn [agents allocated calls]; now rewrite <- !(assoc_L (++)).
  - now rewrite <- !(assoc_L (++)).
Qed.

(** Once the comprehension has its values, the run is decided by the
    histogram call. *)
Lemma make_histogram_plots (hist_raises : list value → Z → option exn)
    (w : world) (vals : list value) :
  mapM (λ agent : entity, agent !! "wealth") (agents w) = Some vals →
  plots hist_raises w vals.
Proof.
  intros Hvals. unfold plots, eval_nb, exec_nb.
  rewrite make_histogram_run, Hvals.
  now destruct (hist_raises vals 10).
Qed.

(** An agent's portrayal is a record only if its wealth lookup is a number. *)
Lemma portrayed_has_number (agent : entity) (r : portrayal) :
  eval agent_portrayal agent = Ok r →
  ∃ v n, agent !! "wealth" = Some v ∧ as_int v = Some n ∧
         r = if 0 <? n then favorable else depleted.
Proof.
  unfold eval. rewrite agent_portrayal_run. cbn [snd].
  destruct (agent !! "wealth") as [v|]; [|discriminate].
  destruct (as_int v) as [n|] eqn:Hn; [|discriminate].
  intros [= <-]. now exists v, n.
Qed.

(** ** The histogram component: what a run does *)

Local Open Scope list_scope.

(** X6. When every agent of the schedule has a [wealth] attribute,
    [make_histogram] creates a figure and its axes and makes one histogram
    call, in ten bins, on the agents' wealth values, one value per agent in
    schedule order.  If that call returns, the same figure is displayed and
    [make_histogram] returns [None]; if it raises, [make_histogram] raises
    the same exception and the figure is never displayed. *)
Theorem make_histogram_plots_wealths
    (hist_raises : list value → Z → option exn) (w : world) :
  Forall (λ agent : entity, is_Some (agent !! "wealth")) (agents w) →
  ∃ vals,
    Forall2 (λ (agent : entity) v, agent !! "wealth" = Some v) (agents w) vals ∧
    match hist_raises vals 10 with
    | None =>
        eval_nb (make_histogram hist_raises) w = Ok VNone ∧
        calls (exec_nb (make_histogram hist_raises) w) =
          calls w ++ histogram_calls (allocated w) vals
    | Some e =>
        eval_nb (make_histogram hist_raises) w = Raise e ∧
        calls (exec_nb (make_histogram hist_raises) w) =
          calls w ++ refused_calls (allocated w) vals
    end.
Proof.
  intros Hall. apply (mapM_is_Some_2 (λ agent : entity, agent !! "wealth")) in Hall.
  destruct Hall as [vals Hvals]. exists vals.
  split; [now apply mapM_Some_1|].
  exact (make_histogram_plots hist_raises w vals Hvals).
Qed.

Lemma make_histogram_plots_wealths_witness :
  Forall (λ agent : entity, is_Some (agent !! "wealth")) (agents money_model) ∧
  ∃ vals,
    Forall2 (λ (agent : entity) v, agent !! "wealth" = Some v)
      (agents money_model) vals ∧
    match numbers_only vals 10 with
    | None =>
        eval_nb (make_histogram numbers_only) money_model = Ok VNone ∧
        calls (exec_nb (make_histogram numbers_only) money_model) =
          calls money_model ++ histogram_calls (allocated money_model) vals
    | Some e =>
        eval_nb (make_histogram numbers_only) money_model = Raise e ∧
        calls (exec_nb (make_histogram numbers_only) money_model) =
          calls money_model ++ refused_calls (allocated money_model) vals
    end.
Proof.
  assert (H : Forall (λ agent : entity, is_Some (agent !! "wealth"))
                (agents money_model)).
  { repeat (constructor; [eexists; reflexivity|]). constructor. }
  split; [exact H|].
  exact (make_histogram_plots_wealths numbers_only money_model H).
Defined.

(** X7. When some agent of the schedule has no [wealth] attribute,
    [make_histogram] raises [AttributeError] for [wealth]; the figure and its
    axes have been created by then, and neither the histogram call nor the
    display call is made. *)
Theorem make_histogram_missing_attribute
    (hist_raises : list value → Z → option exn) (w : world) :
  Exists (λ agent : entity, agent !! "wealth" = None) (agents w) →
  eval_nb (make_histogram hist_raises) w = Raise (AttributeError "wealth") ∧
  calls (exec_nb (make_histogram hist_raises) w) =
    calls w ++ abandoned_calls (allocated w).
Proof.
  intros Hsome. apply (mapM_None_2 (λ agent : entity, agent !! "wealth")) in Hsome.
  unfold eval_nb, exec_nb. rewrite make_histogram_run, Hsome. now split.
Qed.

Lemma make_histogram_missing_attribute_witness :
  Exists (λ agent : entity, agent !! "wealth" = None) (agents broken_model) ∧
  eval_nb (make_histogram numbers_only) broken_model =
    Raise (AttributeError "wealth") ∧
  calls (exec_nb (make_histogram numbers_only) broken_model) =
    calls broken_model ++ abandoned_calls (allocated broken_model).
Proof.
  assert (H : Exists (λ agent : entity, agent !! "wealth" = None)
                (agents broken_model)).
  { apply Exists_cons_tl, Exists_cons_hd. reflexivity. }
  split; [exact H|].
  exact (make_histogram_missing_attribute numbers_only broken_model H).
Defined.

(** X8. A run of [make_histogram] never changes the model's agents, whether
    it returns or raises, in the comprehension or in the histogram call, and
    it only adds to the library calls made before it. *)
Theorem make_histogram_keeps_agents
    (hist_raises : list value → Z → option exn) (w : world) :
  agents (exec_nb (make_histogram hist_raises) w) = agents w ∧
  calls w `prefix_of` calls (exec_nb (make_histogram hist_raises) w).
Proof.
  unfold exec_nb. rewrite make_histogram_run.
  destruct (mapM _ (agents w)) as [vals|]; [destruct (hist_raises vals 10)|];
    cbn [fst agents calls];
    (split; [reflexivity | apply prefix_app_r; reflexivity]).
Qed.

(** X9. When the portrayal callback returns a record for every agent of the
    schedule, [make_histogram] gets through its comprehension and makes the
    histogram call; every value it hands to the histogram is a number, and
    an agent is drawn blue exactly when its histogram value is positive.
    Whether [make_histogram] then returns is up to the histogram call: it
    returns [None] if the call returns and raises what the call raises. *)
Theorem make_histogram_matches_portrayal
    (hist_raises : list value → Z → option exn) (w : world) :
  Forall (λ agent, ∃ r, eval agent_portrayal agent = Ok r) (agents w) →
  ∃ vals,
    Forall2 (λ agent v, ∃ n, as_int v = Some n ∧
               eval agent_portrayal agent =
                 Ok (if 0 <? n then favorable else depleted))
      (agents w) vals ∧
    match hist_raises vals 10 with
    | None =>
        eval_nb (make_histogram hist_raises) w = Ok VNone ∧
        calls (exec_nb (make_histogram hist_raises) w) =
          calls w ++ histogram_calls (allocated w) vals
    | Some e =>
        eval_nb (make_histogram hist_raises) w = Raise e ∧
        calls (exec_nb (make_histogram hist_raises) w) =
          calls w ++ refused_calls (allocated w) vals
    end.
Proof.
  intros Hall.
  assert (Hvals : ∃ vals,
    Forall2 (λ (agent : entity) v, agent !! "wealth" = Some v ∧ ∃ n,
               as_int v = Some n ∧
               eval agent_portrayal agent =
                 Ok (if 0 <? n then favorable else depleted))
      (agents w) vals).
  { induction Hall as [|agent rest [r Hr] _ [vals IH]].
    - exists []. constructor.
    - destruct (portrayed_has_number agent r Hr) as (v & n & Hv & Hn & ->).
      exists (v :: vals). constructor; [|exact IH].
      split; [exact Hv|]. exists n. split; [exact Hn | exact Hr]. }
  destruct Hvals as [vals Hvals]. exists vals.
  assert (Hmap : mapM (λ agent : entity, agent !! "wealth") (agents w) = Some vals).
  { apply mapM_Some_2. eapply Forall2_impl; [exact Hvals|].
    now intros agent v [Hv _]. }
  split.
  - eapply Forall2_impl; [exact Hvals|]. now intros agent v [_ Hn].
  - exact (make_histogram_plots hist_raises w vals Hmap).
Qed.

Lemma make_histogram_matches_portrayal_witness :
  Forall (λ agent, ∃ r, eval agent_portrayal agent = Ok r) (agents money_model) ∧
  ∃ vals,
    Forall2 (λ agent v, ∃ n, as_int v = Some n ∧
               eval agent_portrayal agent =
                 Ok (if 0 <? n then favorable else depleted))
      (agents money_model) vals ∧
    match never_plots vals 10 with
    | None =>
        eval_nb (make_histogram never_plots) money_model = Ok VNone ∧
        calls (exec_nb (make_histogram never_plots) money_model) =
          calls money_model ++ histogram_calls (allocated money_model) vals
    | Some e =>
        eval_nb (make_histogram never_plots) money_model = Raise e ∧
        calls (exec_nb (make_histogram never_plots) money_model) =
          calls money_model ++ refused_calls (allocated money_model) vals
    end.
Proof.
  assert (H : Forall (λ agent, ∃ r, eval agent_portrayal agent = Ok r)
                (agents money_model)).
  { repeat (constructor; [eexists; reflexivity|]). constructor. }
  split; [exact H|].
  exact (make_histogram_matches_portrayal never_plots money_model H).
Defined.


